(** * Video Insight Analyzer: the Streamlit page script of [main_app.py]

    The repository is one Streamlit script.  Streamlit re-executes the whole
    script, top to bottom, on every user interaction; widgets return their
    current value, display commands append elements to the page, and
    [st.stop()] ends the run by raising a control exception.

    The script is embedded as a computation in a small state-and-exception
    monad over a [world] that holds what the script can observe or change:
    the process-wide [st.cache_resource] store, the session's
    [st.session_state], the page rendered so far, and (as instrumentation)
    the log of calls made to the analysis pipeline. *)

From stdpp Require Import gmap strings list fin_maps pretty.
From Stdlib Require Import ZArith Lia.

Local Open Scope string_scope.
Local Open Scope Z_scope.
Local Set Warnings "-register-all".

(** ** Python exceptions *)

Module Py.

(** The part of Python's built-in exception hierarchy that the script's
    [except] clauses discriminate, together with Streamlit's script-control
    exceptions.  [Derived name base mixins] is a user-defined class
    [class name(base, *mixins)]: a class can have several bases. *)
Inductive exc_class : Type :=
  | BaseException
  | SystemExit
  | KeyboardInterrupt
  | GeneratorExit
  | ScriptControlException
  | StopException
  | RerunException
  | Exception
  | ArithmeticError
  | AttributeError
  | LookupError
  | KeyError
  | NameError
  | OSError
  | ConnectionError
  | BrokenPipeError
  | ConnectionAbortedError
  | ConnectionRefusedError
  | ConnectionResetError
  | FileNotFoundError
  | TimeoutError
  | RuntimeError
  | TypeError
  | ValueError
  | UnicodeError
  | Derived (name : string) (base : exc_class) (mixins : list exc_class).

Definition exc_class_dec : forall c d : exc_class, {c = d} + {c <> d}.
Proof.
  fix IH 1. intros c d. decide equality.
  - apply (List.list_eq_dec IH).
  - apply String.string_dec.
Defined.

#[global] Instance exc_class_eq_dec : EqDecision exc_class := exc_class_dec.

Definition is_builtin (c : exc_class) : Prop :=
  match c with
  | Derived _ _ _ => False
  | _ => True
  end.

(** The first base class; [None] at the root. *)
Definition base_of (c : exc_class) : option exc_class :=
  match c with
  | BaseException => None
  | SystemExit | KeyboardInterrupt | GeneratorExit
  | ScriptControlException | Exception => Some BaseException
  | StopException | RerunException => Some ScriptControlException
  | ArithmeticError | AttributeError | LookupError | NameError | OSError
  | RuntimeError | TypeError | ValueError => Some Exception
  | KeyError => Some LookupError
  | ConnectionError | FileNotFoundError | TimeoutError => Some OSError
  | BrokenPipeError | ConnectionAbortedError | ConnectionRefusedError
  | ConnectionResetError => Some ConnectionError
  | UnicodeError => Some ValueError
  | Derived _ b _ => Some b
  end.

Fixpoint mro_upto (fuel : nat) (c : exc_class) : list exc_class :=
  c :: match fuel with
       | O => []
       | S fuel' =>
           match base_of c with
           | Some b => mro_upto fuel' b
           | None => []
           end
       end.

(** The method resolution order of a built-in class: the chain of its
    bases, which is at most four bases long. *)
Definition builtin_mro (c : exc_class) : list exc_class := mro_upto 4 c.

(** The classes on the method resolution order of [c]: the class and all
    its ancestors (their order, and repetitions, do not matter for
    [issubclass]). *)
Fixpoint ancestors (c : exc_class) : list exc_class :=
  match c with
  | Derived _ b ms =>
      c :: (ancestors b ++
            (fix go (l : list exc_class) : list exc_class :=
               match l with
               | [] => []
               | m :: l' => ancestors m ++ go l'
               end) ms)%list
  | _ => builtin_mro c
  end.

Definition issubclass (c d : exc_class) : bool := bool_decide (d ∈ ancestors c).

(** A raised exception object: its class and what [str(e)] yields. *)
Record exc : Type := mk_exc { exc_type : exc_class; exc_str : string }.

Definition isinstance (e : exc) (d : exc_class) : bool :=
  issubclass (exc_type e) d.

(** Truthiness of the values the script tests. *)
Definition truthy_str (s : string) : bool :=
  match s with EmptyString => false | _ => true end.

Definition truthy_opt_str (o : option string) : bool :=
  match o with Some s => truthy_str s | None => false end.

Definition truthy_opt_bool (o : option bool) : bool :=
  match o with Some b => b | None => false end.

(** [s.startswith((p1, ..., pn))] *)
Definition startswith (s : string) (prefixes : list string) : bool :=
  existsb (fun p => String.prefix p s) prefixes.

(** CPython's default limit on the number of digits of an [int] that is
    converted to a decimal string ([sys.get_int_max_str_digits()]). *)
Definition int_max_str_digits : Z := 4300.

Definition int_str_digits_error : exc :=
  mk_exc ValueError
    "Exceeds the limit (4300 digits) for integer string conversion; use sys.set_int_max_str_digits() to increase the limit".

(** [f"{n}"] for an [int]: the decimal string, or a [ValueError] when [n]
    has more digits than the limit (the sign does not count). *)
Definition format_int (n : Z) : exc + string :=
  if Z.abs n <? 10 ^ int_max_str_digits
  then inr (pretty n)
  else inl int_str_digits_error.

#[global] Arguments format_int : simpl never.

End Py.


(** ** The page and the script monad *)

Module St.

(** The display calls of a run, in order, each with the arguments the script
    passes (what Streamlit makes of a text before it reaches the browser is
    not modelled).  Containers ([Expander], [Status]) hold the elements
    rendered inside them. *)
Inductive element : Type :=
  | PageConfig (page_title layout initial_sidebar_state : string)
  | Title (body : string)
  | Markdown (body : string)
  | Caption (body : string)
  | Subheader (body : string)
  | Warning (body : string)
  | Error (body : string)
  | Info (body : string)
  | ExceptionBox (e : Py.exc)
  | Metric (label value delta_color : string)
  | Code (body language : string)
  | TextInput (label placeholder key : string)
  | Button (label type : string)
  | Expander (label : string) (expanded : bool) (children : list element)
  | Status (label state : string) (expanded : bool) (children : list element).

(** Every element of a page, containers and their contents alike. *)
Fixpoint subelements (e : element) : list element :=
  e :: match e with
       | Expander _ _ cs | Status _ _ _ cs =>
           (fix go (l : list element) : list element :=
              match l with
              | [] => []
              | c :: l' => (subelements c ++ go l')%list
              end) cs
       | _ => []
       end.

Definition all_elements (p : list element) : list element :=
  concat (map subelements p).

(** [e] is shown somewhere on page [p]. *)
Definition shown (e : element) (p : list element) : Prop :=
  In e (all_elements p).

Definition add_child (c : element) (e : element) : element :=
  match e with
  | Expander l x cs => Expander l x (cs ++ [c])%list
  | Status l s x cs => Status l s x (cs ++ [c])%list
  | _ => e
  end.

(** [status.update(label=..., state=..., expanded=...)] *)
Definition update_status (label state : string) (expanded : bool)
    (e : element) : element :=
  match e with
  | Status _ _ _ cs => Status label state expanded cs
  | _ => e
  end.

(** Leaving a [with st.status(...)] block: a status still running becomes
    "error" when the block raised and "complete" otherwise. *)
Definition close_status (raised : bool) (e : element) : element :=
  match e with
  | Status l s x cs =>
      if String.eqb s "running"
      then Status l (if raised then "error" else "complete") x cs
      else e
  | _ => e
  end.

(** A handle on the API client.  [client_id] is the object's identity: the
    number of clients the process had built before this one. *)
Record Client : Type := mk_client { client_id : nat; client_api_key : string }.

(** Modelled from the spec: the declaration of [CommunicationAnalysis]
    (imported from [backend.processing_logic], which is not part of the
    sources): a numeric score, a short text label and the transcript. *)
Record CommunicationAnalysis : Type := mk_analysis {
  clarity_score : Z;
  communication_focus : string;
  transcript : string }.

Section World.

(** The state of the analysis backend (downloader, remote API) is opaque. *)
Context {Backend : Type}.

Record world : Type := mk_world {
  resource_cache : option Client;        (* [st.cache_resource] entry of [get_gemini_client] *)
  clients_built : nat;                   (* [genai.Client] objects constructed so far *)
  session_state : gmap string bool;      (* [st.session_state] *)
  backend : Backend;
  pipeline_calls : list (string * Client); (* calls of [process_video_insights], oldest first *)
  page : list element }.

Definition set_resource_cache (c : option Client) (w : world) : world :=
  mk_world c (clients_built w) (session_state w) (backend w) (pipeline_calls w) (page w).
Definition set_clients_built (n : nat) (w : world) : world :=
  mk_world (resource_cache w) n (session_state w) (backend w) (pipeline_calls w) (page w).
Definition set_session_state (s : gmap string bool) (w : world) : world :=
  mk_world (resource_cache w) (clients_built w) s (backend w) (pipeline_calls w) (page w).
Definition set_backend (b : Backend) (w : world) : world :=
  mk_world (resource_cache w) (clients_built w) (session_state w) b (pipeline_calls w) (page w).
Definition set_pipeline_calls (l : list (string * Client)) (w : world) : world :=
  mk_world (resource_cache w) (clients_built w) (session_state w) (backend w) l (page w).
Definition set_page (p : list element) (w : world) : world :=
  mk_world (resource_cache w) (clients_built w) (session_state w) (backend w) (pipeline_calls w) p.

(** A statement either completes with a value or raises; the world it leaves
    behind is kept in both cases. *)
Inductive outcome (A : Type) : Type :=
  | Returned (a : A)
  | Raised (e : Py.exc).
#[global] Arguments Returned {A} a.
#[global] Arguments Raised {A} e.

Definition script (A : Type) : Type := world -> outcome A * world.

Definition ret {A} (a : A) : script A := fun w => (Returned a, w).

Definition raise {A} (e : Py.exc) : script A := fun w => (Raised e, w).

(** The value of an expression that may raise. *)
Definition evaluate {A} (r : Py.exc + A) : script A :=
  match r with
  | inl e => raise e
  | inr a => ret a
  end.

Definition bind {A B} (m : script A) (k : A -> script B) : script B :=
  fun w =>
    match m w with
    | (Returned a, w') => k a w'
    | (Raised e, w') => (Raised e, w')
    end.

Definition when (b : bool) (m : script unit) : script unit :=
  if b then m else ret tt.

(** [except] clauses are tried in order; the first whose class the exception
    is an instance of handles it, and an exception none of them matches
    keeps propagating. *)
Fixpoint dispatch {A} (handlers : list (Py.exc_class * (Py.exc -> script A)))
    (e : Py.exc) : script A :=
  match handlers with
  | [] => raise e
  | (c, h) :: rest => if Py.isinstance e c then h e else dispatch rest e
  end.

Definition try_except {A} (body : script A)
    (handlers : list (Py.exc_class * (Py.exc -> script A))) : script A :=
  fun w =>
    match body w with
    | (Returned a, w') => (Returned a, w')
    | (Raised e, w') => dispatch handlers e w'
    end.

(** [with enter as h: body]; [leave h raised] runs on the way out, and an
    exception of the body is re-raised after it. *)
Definition with_block {A} (enter : script nat) (leave : nat -> bool -> script unit)
    (body : nat -> script A) : script A :=
  bind enter (fun h w =>
    match body h w with
    | (Returned a, w') => bind (leave h false) (fun _ => ret a) w'
    | (Raised e, w') => bind (leave h true) (fun _ => raise e) w'
    end).

(** *** Streamlit commands *)

Definition emit (e : element) : script unit :=
  fun w => (Returned tt, set_page (page w ++ [e])%list w).

(** Render [e] inside the container with handle [h] (its index on the page). *)
Definition emit_in (h : nat) (e : element) : script unit :=
  fun w => (Returned tt, set_page (alter (add_child e) h (page w)) w).

Definition alter_element (h : nat) (f : element -> element) : script unit :=
  fun w => (Returned tt, set_page (alter f h (page w)) w).

(** Opening a container returns its handle. *)
Definition open_container (e : element) : script nat :=
  fun w => (Returned (length (page w)), set_page (page w ++ [e])%list w).

Definition st_stop {A} : script A := raise (Py.mk_exc Py.StopException "").

Definition session_state_set (k : string) (v : bool) : script unit :=
  fun w => (Returned tt, set_session_state (<[k := v]> (session_state w)) w).

Definition session_state_get (k : string) : script (option bool) :=
  fun w => (Returned (session_state w !! k), w).

End World.

#[global] Arguments world : clear implicits.
#[global] Arguments script : clear implicits.

End St.

#[global] Instance script_ret {B} : MRet (St.script B) := @St.ret B.
#[global] Instance script_bind {B} : MBind (St.script B) :=
  fun _ _ k m => St.bind m k.

(** ** The script [main_app.py] *)

Module App.
Import St.

(** What one run of the script reads from outside: the process environment
    (after [load_dotenv()]) and the current values of the two widgets. *)
Record interaction : Type := mk_interaction {
  environ : gmap string string;
  video_url_input : string;      (* value of the text input *)
  analyze_clicked : bool }.      (* whether this run was triggered by the button *)

Section Script.

Context {Backend : Type}.

(** [genai.Client(api_key=...)]: [Some e] when the constructor raises [e]. *)
Variable Client_init : string -> option Py.exc.

(** [backend.processing_logic.process_video_insights], the analysis pipeline:
    it returns an analysis or raises, and may change the backend's state. *)
Variable process_video_insights :
  string -> Client -> Backend -> (Py.exc + CommunicationAnalysis) * Backend.

#[local] Abbreviation script := (St.script Backend).
#[local] Abbreviation world := (St.world Backend).

Definition os_getenv (i : interaction) (name : string) : option string :=
  environ i !! name.

Definition genai_Client (api_key : string) : script Client :=
  fun w =>
    match Client_init api_key with
    | Some e => (Raised e, w)
    | None =>
        (Returned (mk_client (clients_built w) api_key),
         set_clients_built (S (clients_built w)) w)
    end.

(** [@st.cache_resource] on a function without arguments: the first call
    that returns stores its result; later calls return the stored object
    without running the function.  A call that raises stores nothing. *)
Definition cache_resource (f : script Client) : script Client :=
  fun w =>
    match resource_cache w with
    | Some c => (Returned c, w)
    | None =>
        match f w with
        | (Returned c, w') => (Returned c, set_resource_cache (Some c) w')
        | (Raised e, w') => (Raised e, w')
        end
    end.

Definition get_gemini_client (GEMINI_API_KEY : string) : script Client :=
  cache_resource (genai_Client GEMINI_API_KEY).

(** The call of the pipeline, recorded in [pipeline_calls].  The global
    [gemini_client] is unbound when the client was not initialised. *)
Definition call_process_video_insights (video_url : string)
    (gemini_client : option Client) : script CommunicationAnalysis :=
  fun w =>
    match gemini_client with
    | None => (Raised (Py.mk_exc Py.NameError "name 'gemini_client' is not defined"), w)
    | Some c =>
        let '(r, b) := process_video_insights video_url c (backend w) in
        let w' := set_pipeline_calls (pipeline_calls w ++ [(video_url, c)])%list
                    (set_backend b w) in
        match r with
        | inl e => (Raised e, w')
        | inr analysis => (Returned analysis, w')
        end
    end.

Definition st_text_input (label placeholder key value : string) : script string :=
  emit (TextInput label placeholder key) ;; mret value.

Definition st_button (label type : string) (clicked : bool) : script bool :=
  emit (Button label type) ;; mret clicked.

Definition st_status (label : string) (expanded : bool) : script nat :=
  open_container (Status label "running" expanded []).

Definition st_expander (label : string) (expanded : bool) : script nat :=
  open_container (Expander label expanded []).

(** Lines 9-28: configuration and initialisation.  The result is the binding
    of the global [gemini_client], if any. *)
Definition initialization (i : interaction) : script (option Client) :=
  let GEMINI_API_KEY := os_getenv i "GEMINI_API_KEY" in
  match GEMINI_API_KEY with
  | Some key =>
      if Py.truthy_str key then
        try_except
          (gemini_client ← get_gemini_client key;
           session_state_set "client_ready" true ;;
           mret (Some gemini_client))
          [(Py.Exception, fun e =>
              emit (Error ("Failed to initialize Gemini Client: " +:+ Py.exc_str e)) ;;
              session_state_set "client_ready" false ;;
              mret None)]
      else session_state_set "client_ready" false ;; mret None
  | None => session_state_set "client_ready" false ;; mret None
  end.

(** Lines 32-44. *)
Definition page_header : script unit :=
  emit (PageConfig "Video Insight Analyzer" "centered" "auto") ;;
  emit (Title "📹 Video Insight Analyzer") ;;
  emit (Markdown "
    A simple backend-focused tool to extract communication insights from a public video URL 
    (e.g., YouTube, Loom). This tool fulfills the **Python Assessment** requirements.
    ").

(** Lines 46-49. *)
Definition api_key_warning : script unit :=
  client_ready ← session_state_get "client_ready";
  when (negb (Py.truthy_opt_bool client_ready))
    (emit (Warning "🚨 **API Key Missing!** Please ensure you have set the `GEMINI_API_KEY` in your `.env` file and restarted the application.") ;;
     st_stop).

(** Lines 69-85: the [with st.status(...)] block. *)
Definition analysis_status (video_url : string) (gemini_client : option Client)
    : script CommunicationAnalysis :=
  with_block (st_status "Analyzing Video..." true)
    (fun status raised => alter_element status (close_status raised))
    (fun status =>
       emit_in status (Markdown "Starting video analysis pipeline...") ;;
       emit_in status (Markdown "Extracting and preparing audio from URL...") ;;
       emit_in status (Markdown "Sending audio to Gemini for transcription and LLM analysis...") ;;
       analysis ← call_process_video_insights video_url gemini_client;
       emit_in status (Markdown "Analysis complete. Structuring results.") ;;
       alter_element status (update_status "Analysis Complete!" "complete" false) ;;
       mret analysis).

(** Lines 87-103: the three result outputs. *)
Definition display_outputs (analysis : CommunicationAnalysis) : script unit :=
  emit (Subheader "✅ Analysis Results") ;;
  value ← evaluate (Py.format_int (clarity_score analysis));
  emit (Metric "Clarity Score" (value +:+ "%") "off") ;;
  emit (Info ("**Communication Focus:** " +:+ communication_focus analysis)) ;;
  with_block (st_expander "View Full Transcript" false)
    (fun _ _ => mret tt)
    (fun expander => emit_in expander (Code (transcript analysis) "text")).

(** Lines 60-113: the button handler. *)
Definition handler (video_url : string) (gemini_client : option Client)
    : script unit :=
  when (negb (Py.startswith video_url ["http://"; "https://"]))
    (emit (Error "Please enter a valid URL starting with http:// or https://") ;;
     st_stop) ;;
  try_except
    (analysis ← analysis_status video_url gemini_client;
     display_outputs analysis)
    [(Py.ConnectionError, fun e =>
        emit (Error ("**API Error:** " +:+ Py.exc_str e)) ;;
        emit (Markdown "Please verify your Gemini API key is correct and ensure network connectivity."));
     (Py.ValueError, fun e =>
        emit (Error ("**Processing Error:** " +:+ Py.exc_str e)) ;;
        emit (Markdown "This usually means `yt-dlp` couldn't process the video URL. Ensure the link is public and accessible."));
     (Py.Exception, fun e =>
        emit (ExceptionBox e) ;;
        emit (Error ("An unexpected error occurred during processing: " +:+ Py.exc_str e)))].

(** Lines 115-117. *)
Definition footer : script unit :=
  emit (Markdown "---") ;;
  emit (Caption "Backend powered by Python, yt-dlp, and Google Gemini. UI via Streamlit.").

(** The whole script. *)
Definition main (i : interaction) : script unit :=
  gemini_client ← initialization i;
  page_header ;;
  api_key_warning ;;
  video_url ← st_text_input "Enter Public Video URL"
                 "e.g., https://www.youtube.com/watch?v=dQw4w9WgXcQ"
                 "video_url_input" (video_url_input i);
  clicked ← st_button "Analyze Video Insights" "primary" (analyze_clicked i);
  when (clicked && Py.truthy_str video_url) (handler video_url gemini_client) ;;
  footer.

(** One run of the script: the page starts empty, everything else is what
    the previous run (or process start) left. *)
Definition run (i : interaction) (w : world) : outcome unit * world :=
  main i (set_page [] w).

(** A run's exception that is not Streamlit's own [st.stop()] signal has
    escaped the script. *)
Definition escaped (o : outcome unit) : bool :=
  match o with
  | Returned _ => false
  | Raised e => negb (Py.isinstance e Py.StopException)
  end.

End Script.
End App.


(** ** The pages a run can produce *)

Module Pages.
Import St App.

Definition header_page : list element :=
  [PageConfig "Video Insight Analyzer" "centered" "auto";
   Title "📹 Video Insight Analyzer";
   Markdown "
    A simple backend-focused tool to extract communication insights from a public video URL 
    (e.g., YouTube, Loom). This tool fulfills the **Python Assessment** requirements.
    "].

Definition api_key_warning_element : element :=
  Warning "🚨 **API Key Missing!** Please ensure you have set the `GEMINI_API_KEY` in your `.env` file and restarted the application.".

Definition text_input_element : element :=
  TextInput "Enter Public Video URL"
    "e.g., https://www.youtube.com/watch?v=dQw4w9WgXcQ" "video_url_input".

Definition button_element : element :=
  Button "Analyze Video Insights" "primary".

Definition form_page : list element :=
  (header_page ++ [text_input_element; button_element])%list.

Definition footer_page : list element :=
  [Markdown "---";
   Caption "Backend powered by Python, yt-dlp, and Google Gemini. UI via Streamlit."].

Definition validation_error : element :=
  Error "Please enter a valid URL starting with http:// or https://".

Definition progress_notes : list element :=
  [Markdown "Starting video analysis pipeline...";
   Markdown "Extracting and preparing audio from URL...";
   Markdown "Sending audio to Gemini for transcription and LLM analysis..."].

Definition status_complete : element :=
  Status "Analysis Complete!" "complete" false
    (progress_notes ++ [Markdown "Analysis complete. Structuring results."])%list.

Definition status_error : element :=
  Status "Analyzing Video..." "error" true progress_notes.

(** What a run renders after the pipeline returned [a].  The score is
    formatted after the heading is out; when that raises, the [ValueError]
    is handled like one of the pipeline. *)
Definition results_page (a : CommunicationAnalysis) : list element :=
  status_complete ::
  Subheader "✅ Analysis Results" ::
  match Py.format_int (clarity_score a) with
  | inr value =>
      [Metric "Clarity Score" (value +:+ "%") "off";
       Info ("**Communication Focus:** " +:+ communication_focus a);
       Expander "View Full Transcript" false [Code (transcript a) "text"]]
  | inl e =>
      [Error ("**Processing Error:** " +:+ Py.exc_str e);
       Markdown "This usually means `yt-dlp` couldn't process the video URL. Ensure the link is public and accessible."]
  end.

Definition api_error_page (e : Py.exc) : list element :=
  [status_error;
   Error ("**API Error:** " +:+ Py.exc_str e);
   Markdown "Please verify your Gemini API key is correct and ensure network connectivity."].

Definition processing_error_page (e : Py.exc) : list element :=
  [status_error;
   Error ("**Processing Error:** " +:+ Py.exc_str e);
   Markdown "This usually means `yt-dlp` couldn't process the video URL. Ensure the link is public and accessible."].

Definition unexpected_error_page (e : Py.exc) : list element :=
  [status_error;
   ExceptionBox e;
   Error ("An unexpected error occurred during processing: " +:+ Py.exc_str e)].

(** The three success outputs: the metric, the focus callout and the
    transcript block (with the code element it holds). *)
Definition is_result_output (e : element) : bool :=
  match e with
  | Metric _ _ _ | Info _ | Expander _ _ _ | Code _ _ => true
  | _ => false
  end.

(** The elements of the form. *)
Definition is_form_widget (e : element) : bool :=
  match e with
  | TextInput _ _ _ | Button _ _ => true
  | _ => false
  end.

(** The messages of the processing-error and of the unexpected-error paths. *)
Definition is_processing_error_output (e : element) : bool :=
  match e with
  | Error body => String.prefix "**Processing Error:** " body
  | Markdown body => String.prefix "This usually means `yt-dlp`" body
  | _ => false
  end.

Definition is_unexpected_error_output (e : element) : bool :=
  match e with
  | Error body => String.prefix "An unexpected error occurred" body
  | ExceptionBox _ => true
  | _ => false
  end.

Definition is_validation_error (e : element) : bool :=
  match e with
  | Error body => String.eqb body "Please enter a valid URL starting with http:// or https://"
  | _ => false
  end.

Definition is_api_error_output (e : element) : bool :=
  match e with
  | Error body => String.prefix "**API Error:** " body
  | Markdown body => String.prefix "Please verify your Gemini API key" body
  | _ => false
  end.

(** No element of the page satisfies [f]. *)
Definition none_shown (f : element -> bool) (p : list element) : bool :=
  forallb (fun e => negb (f e)) (all_elements p).

Section Situations.

Context {Backend : Type}.
Variable Client_init : string -> option Py.exc.
Variable process_video_insights :
  string -> Client -> Backend -> (Py.exc + CommunicationAnalysis) * Backend.

(** The client the script works with when initialisation succeeds: the
    cached one, or else a freshly built one. *)
Definition client_of (key : string) (w : world Backend) : Client :=
  match resource_cache w with
  | Some c => c
  | None => mk_client (clients_built w) key
  end.

Definition world_after_init (key : string) (w : world Backend) : world Backend :=
  set_session_state (<["client_ready" := true]> (session_state w))
    match resource_cache w with
    | Some _ => w
    | None =>
        set_resource_cache (Some (mk_client (clients_built w) key))
          (set_clients_built (S (clients_built w)) w)
    end.

(** The credential is set and a client is at hand: cached already, or the
    constructor does not raise. *)
Definition client_ready (i : interaction) (w : world Backend) (key : string) : Prop :=
  os_getenv i "GEMINI_API_KEY" = Some key /\
  Py.truthy_str key = true /\
  (resource_cache w = None -> Client_init key = None).

(** The run started from [w] on interaction [i] is an analyze click on a
    URL with a scheme prefix, with the client ready. *)
Definition analyze_request (i : interaction) (w : world Backend) (key : string) : Prop :=
  client_ready i w key /\
  analyze_clicked i = true /\
  Py.startswith (video_url_input i) ["http://"; "https://"] = true.

(** What the pipeline does when called for that request. *)
Definition pipeline_result (i : interaction) (w : world Backend) (key : string)
    : (Py.exc + CommunicationAnalysis) * Backend :=
  process_video_insights (video_url_input i) (client_of key w) (backend w).

(** The world a run leaves when it called the pipeline. *)
Definition world_after_call (i : interaction) (key : string) (b : Backend)
    (p : list element) (w : world Backend) : world Backend :=
  set_page p
    (set_pipeline_calls
       (pipeline_calls w ++ [(video_url_input i, client_of key w)])%list
       (set_backend b (world_after_init key w))).

(** What a run shows, and how it ends, when the pipeline raised [e]: the
    [except] clauses in their order. *)
Definition failure_page (e : Py.exc) : list element :=
  if Py.isinstance e Py.ConnectionError then
    (form_page ++ api_error_page e ++ footer_page)%list
  else if Py.isinstance e Py.ValueError then
    (form_page ++ processing_error_page e ++ footer_page)%list
  else if Py.isinstance e Py.Exception then
    (form_page ++ unexpected_error_page e ++ footer_page)%list
  else (form_page ++ [status_error])%list.

Definition failure_outcome (e : Py.exc) : outcome unit :=
  if Py.isinstance e Py.ConnectionError then Returned tt
  else if Py.isinstance e Py.ValueError then Returned tt
  else if Py.isinstance e Py.Exception then Returned tt
  else Raised e.

(** The seven ways a run can go, each with the outcome and the world it
    leaves. *)
Inductive run_case (i : interaction) (w : world Backend)
    : outcome unit * world Backend -> Prop :=
  | case_no_credential :
      Py.truthy_opt_str (os_getenv i "GEMINI_API_KEY") = false ->
      run_case i w
        (Raised (Py.mk_exc Py.StopException ""),
         set_page (header_page ++ [api_key_warning_element])%list
           (set_session_state (<["client_ready" := false]> (session_state w)) w))
  | case_client_error (key : string) (e : Py.exc) :
      os_getenv i "GEMINI_API_KEY" = Some key ->
      Py.truthy_str key = true ->
      resource_cache w = None ->
      Client_init key = Some e ->
      Py.isinstance e Py.Exception = true ->
      run_case i w
        (Raised (Py.mk_exc Py.StopException ""),
         set_page
           (Error ("Failed to initialize Gemini Client: " +:+ Py.exc_str e)
              :: header_page ++ [api_key_warning_element])%list
           (set_session_state (<["client_ready" := false]> (session_state w)) w))
  | case_client_escape (key : string) (e : Py.exc) :
      os_getenv i "GEMINI_API_KEY" = Some key ->
      Py.truthy_str key = true ->
      resource_cache w = None ->
      Client_init key = Some e ->
      Py.isinstance e Py.Exception = false ->
      run_case i w (Raised e, set_page [] w)
  | case_idle (key : string) :
      client_ready i w key ->
      analyze_clicked i && Py.truthy_str (video_url_input i) = false ->
      run_case i w
        (Returned tt,
         set_page (form_page ++ footer_page)%list (world_after_init key w))
  | case_invalid (key : string) :
      client_ready i w key ->
      analyze_clicked i = true ->
      Py.truthy_str (video_url_input i) = true ->
      Py.startswith (video_url_input i) ["http://"; "https://"] = false ->
      run_case i w
        (Raised (Py.mk_exc Py.StopException ""),
         set_page (form_page ++ [validation_error])%list (world_after_init key w))
  | case_success (key : string) (a : CommunicationAnalysis) (b : Backend) :
      analyze_request i w key ->
      pipeline_result i w key = (inr a, b) ->
      run_case i w
        (Returned tt,
         world_after_call i key b
           (form_page ++ results_page a ++ footer_page)%list w)
  | case_failure (key : string) (e : Py.exc) (b : Backend) :
      analyze_request i w key ->
      pipeline_result i w key = (inl e, b) ->
      run_case i w
        (failure_outcome e, world_after_call i key b (failure_page e) w).

(** What the cache and the construction counter can look like in a process
    that started with an empty cache. *)
Definition cache_inv (w : world Backend) : Prop :=
  match resource_cache w with
  | None => clients_built w = 0%nat
  | Some c => clients_built w = 1%nat /\ client_id c = 0%nat
  end.

(** One run of some session of the process: sessions differ in their
    [st.session_state], and share everything else. *)
Definition run_step (w w' : world Backend) : Prop :=
  exists (i : interaction) (session : gmap string bool),
    w' = (run Client_init process_video_insights i (set_session_state session w)).2.

End Situations.
End Pages.

Ltac unfold_script :=
  unfold mbind, script_bind, mret, script_ret, St.bind, St.ret, St.raise,
    St.when, St.try_except, St.with_block, St.evaluate, St.emit, St.emit_in,
    St.alter_element, St.open_container, St.st_stop, St.session_state_set,
    St.session_state_get in *.

(** ** A concrete process, for running the script *)

Module Demo.
Import St App.

(** A process just started: nothing cached, nothing rendered. *)
Definition fresh_world : world unit := mk_world None 0 ∅ tt [] [].

Definition with_key : gmap string string := {["GEMINI_API_KEY" := "secret"]}.

Definition click (url : string) : interaction := mk_interaction with_key url true.

Definition click_without_key (url : string) : interaction := mk_interaction ∅ url true.

Definition Client_ok (api_key : string) : option Py.exc := None.

Definition hello_analysis : CommunicationAnalysis :=
  mk_analysis 87 "Active Listening" "Hello world".

Definition other_analysis : CommunicationAnalysis :=
  mk_analysis 12 "Storytelling" "Once upon a time".

(** Pipelines with a fixed behaviour. *)
Definition pipeline_returning (a : CommunicationAnalysis)
    (video_url : string) (client : Client) (b : unit)
    : (Py.exc + CommunicationAnalysis) * unit :=
  (inr a, b).

Definition pipeline_raising (e : Py.exc)
    (video_url : string) (client : Client) (b : unit)
    : (Py.exc + CommunicationAnalysis) * unit :=
  (inl e, b).

(** A pipeline whose answer depends on the URL. *)
Definition pipeline_by_url (video_url : string) (client : Client) (b : unit)
    : (Py.exc + CommunicationAnalysis) * unit :=
  if String.eqb video_url "https://example.org/hello"
  then (inr hello_analysis, b)
  else (inr other_analysis, b).

Definition connection_reset : Py.exc :=
  Py.mk_exc Py.ConnectionResetError "connection reset by peer".

Definition unsupported_url : Py.exc :=
  Py.mk_exc (Py.Derived "DownloadError" Py.ValueError []) "unsupported URL".

(** An instance of [class Both(ValueError, ConnectionError)]. *)
Definition both_kinds : Py.exc :=
  Py.mk_exc (Py.Derived "Both" Py.ValueError [Py.ConnectionError]) "both".

(** What [sys.exit(1)] raises. *)
Definition exit_request : Py.exc := Py.mk_exc Py.SystemExit "1".

End Demo.

(** ** Further vocabulary for whole-process properties *)

Module Process.
Import St App Pages.

(** The two elements of the footer. *)
Definition is_footer_element (e : element) : bool :=
  match e with
  | Markdown body => String.eqb body "---"
  | Caption _ => true
  | _ => false
  end.

Definition completed (o : outcome unit) : bool :=
  match o with
  | Returned _ => true
  | Raised _ => false
  end.

Section Invariants.

Context {Backend : Type}.

(** Every call in the log was made on a URL with a scheme prefix and with
    the client that the cache holds. *)
Definition calls_inv (w : world Backend) : Prop :=
  forall (url : string) (c : Client),
    In (url, c) (pipeline_calls w) ->
    Py.startswith url ["http://"; "https://"] = true /\
    resource_cache w = Some c.

End Invariants.

(** A constructor that rejects every key. *)
Definition Client_rejecting (api_key : string) : option Py.exc :=
  Some (Py.mk_exc Py.ValueError "invalid API key").

Definition timed_out : Py.exc := Py.mk_exc Py.TimeoutError "timed out".

(** A credential that is set but empty. *)
Definition click_with_empty_key (url : string) : interaction :=
  mk_interaction {["GEMINI_API_KEY" := ""]} url true.

(** An analysis whose score has 4301 digits. *)
Definition oversized_analysis : CommunicationAnalysis :=
  mk_analysis (10 ^ 4300) "Empathy" "Hi there".

(** The URL is typed, the button is not pressed. *)
Definition typing (url : string) : interaction :=
  mk_interaction Demo.with_key url false.

End Process.

(** ** Facts about the exception hierarchy *)

Section Hierarchy.
Import Py.

Example ancestors_ConnectionResetError :
  ancestors ConnectionResetError =
  [ConnectionResetError; ConnectionError; OSError; Exception; BaseException].
Proof. reflexivity. Qed.

Example isinstance_stop :
  isinstance (mk_exc StopException "") Exception = false.
Proof. reflexivity. Qed.

Example isinstance_both :
  isinstance (mk_exc (Derived "Both" ValueError [ConnectionError]) "") ValueError = true /\
  isinstance (mk_exc (Derived "Both" ValueError [ConnectionError]) "") ConnectionError = true /\
  isinstance (mk_exc (Derived "Both" ValueError [ConnectionError]) "") KeyError = false.
Proof. repeat split; reflexivity. Qed.

Example format_int_examples :
  format_int 87 = inr "87" /\ format_int 0 = inr "0" /\ format_int (-5) = inr "-5".
Proof. repeat split; reflexivity. Qed.

Example startswith_examples :
  startswith "https://youtu.be/x" ["http://"; "https://"] = true /\
  startswith "http://" ["http://"; "https://"] = true /\
  startswith "HTTP://x" ["http://"; "https://"] = false /\
  startswith "" ["http://"; "https://"] = false.
Proof. repeat split; reflexivity. Qed.

(** [f"{n}"] raises nothing but the digit-limit error, and raises it
    exactly from [10 ^ 4300] on. *)
Lemma format_int_raises (n : Z) (e : exc) :
  format_int n = inl e -> e = int_str_digits_error.
Proof. unfold format_int. destruct (_ <? _); congruence. Qed.

Lemma format_int_oversized (n : Z) :
  10 ^ 4300 <= Z.abs n -> format_int n = inl int_str_digits_error.
Proof.
  intros H. unfold format_int, int_max_str_digits.
  by rewrite (proj2 (Z.ltb_ge _ _) H).
Qed.

Lemma format_int_within (n : Z) :
  Z.abs n < 10 ^ 4300 -> format_int n = inr (pretty n).
Proof.
  intros H. unfold format_int, int_max_str_digits.
  by rewrite (proj2 (Z.ltb_lt _ _) H).
Qed.

(** Induction over classes, with the hypothesis for every base of a derived
    class. *)
Lemma exc_class_induction (P : exc_class -> Prop) :
  (forall c, is_builtin c -> P c) ->
  (forall name b ms, P b -> Forall P ms -> P (Derived name b ms)) ->
  forall c, P c.
Proof.
  intros Hb Hd. fix IH 1. intros c.
  destruct c; try (apply Hb; exact I).
  apply Hd; [apply IH|].
  induction mixins as [|m ms IHms]; constructor; [apply IH | exact IHms].
Qed.

Lemma ancestors_Derived (name : string) (b : exc_class) (ms : list exc_class)
    (d : exc_class) :
  d ∈ ancestors (Derived name b ms) <->
  d = Derived name b ms \/ d ∈ ancestors b \/ exists m, m ∈ ms /\ d ∈ ancestors m.
Proof.
  cbn [ancestors]. rewrite elem_of_cons, elem_of_app.
  assert (Hms : d ∈ (fix go (l : list exc_class) : list exc_class :=
                       match l with
                       | [] => []
                       | m :: l' => (ancestors m ++ go l')%list
                       end) ms <->
                exists m, m ∈ ms /\ d ∈ ancestors m).
  { induction ms as [|m ms IH].
    - split; [intros H; inversion H | intros (m & H & _); inversion H].
    - rewrite elem_of_app, IH. split.
      + intros [H | (m' & Hm & H)].
        * exists m. split; [left | exact H].
        * exists m'. split; [by right | exact H].
      + intros (m' & Hm & H). apply elem_of_cons in Hm as [-> | Hm].
        * by left.
        * right. by exists m'. }
  rewrite Hms. tauto.
Qed.

(** A relation between two built-in classes that holds of the built-in
    classes holds of every class. *)
Lemma issubclass_upward (d d' : exc_class) :
  is_builtin d ->
  (forall c, is_builtin c -> issubclass c d = true -> issubclass c d' = true) ->
  forall c, issubclass c d = true -> issubclass c d' = true.
Proof.
  intros Hd Hbuiltin c. induction c as [c Hc | name b ms IHb IHms]
    using exc_class_induction; [by apply Hbuiltin|].
  unfold issubclass in *. rewrite !bool_decide_eq_true in *.
  rewrite !ancestors_Derived.
  intros [-> | [H | (m & Hm & H)]].
  - destruct Hd.
  - right. left. by apply IHb.
  - right. right. exists m. split; [exact Hm|].
    rewrite Forall_forall in IHms. specialize (IHms m Hm).
    rewrite !bool_decide_eq_true in IHms. by apply IHms.
Qed.

Lemma ConnectionError_is_Exception (c : exc_class) :
  issubclass c ConnectionError = true -> issubclass c Exception = true.
Proof.
  apply issubclass_upward; [exact I|].
  intros c' Hc'. destruct c'; try (vm_compute; congruence). destruct Hc'.
Qed.

Lemma ValueError_is_Exception (c : exc_class) :
  issubclass c ValueError = true -> issubclass c Exception = true.
Proof.
  apply issubclass_upward; [exact I|].
  intros c' Hc'. destruct c'; try (vm_compute; congruence). destruct Hc'.
Qed.

End Hierarchy.

(** ** Properties of a run *)

Section RunProperties.
Import St App Pages.

Context {Backend : Type}.
Variable Client_init : string -> option Py.exc.
Variable process_video_insights :
  string -> Client -> Backend -> (Py.exc + CommunicationAnalysis) * Backend.

#[local] Abbreviation world := (St.world Backend).
#[local] Abbreviation run := (App.run Client_init process_video_insights).
#[local] Abbreviation main := (App.main Client_init process_video_insights).

Lemma initialization_ready (i : interaction) (w : world) (key : string) :
  os_getenv i "GEMINI_API_KEY" = Some key ->
  Py.truthy_str key = true ->
  (resource_cache w = None -> Client_init key = None) ->
  initialization Client_init i w =
    (Returned (Some (client_of key w)), world_after_init key w).
Proof.
  intros Hkey Ht Hc. unfold initialization. rewrite Hkey, Ht.
  unfold get_gemini_client, cache_resource, genai_Client,
    client_of, world_after_init.
  unfold_script. destruct (resource_cache w) eqn:E.
  - reflexivity.
  - rewrite (Hc eq_refl). reflexivity.
Qed.

(** Runs the script up to the form, given that the client is ready. *)
Ltac enter_form i w key Hkey Ht Hc :=
  unfold App.run, App.main; unfold_script;
  rewrite (initialization_ready i (set_page [] w) key Hkey Ht Hc);
  unfold App.page_header, App.api_key_warning, App.st_text_input, App.st_button;
  unfold_script; cbn;
  rewrite lookup_insert_eq; cbn.

Lemma startswith_truthy (url : string) :
  Py.startswith url ["http://"; "https://"] = true -> Py.truthy_str url = true.
Proof. destruct url; [discriminate | reflexivity]. Qed.

(** With the client ready and no analysis requested, the page is the form
    followed by the footer. *)
Lemma run_idle (i : interaction) (w : world) (key : string) :
  client_ready Client_init i w key ->
  analyze_clicked i && Py.truthy_str (video_url_input i) = false ->
  run i w =
    (Returned tt, set_page (form_page ++ footer_page)%list (world_after_init key w)).
Proof.
  intros (Hkey & Ht & Hc) Hidle. enter_form i w key Hkey Ht Hc.
  rewrite Hidle. unfold footer. unfold_script.
  unfold world_after_init. cbn. destruct (resource_cache w); reflexivity.
Qed.

(** A click on a non-empty string without scheme prefix ends the run at the
    validation error. *)
Lemma run_invalid (i : interaction) (w : world) (key : string) :
  client_ready Client_init i w key ->
  analyze_clicked i = true ->
  Py.truthy_str (video_url_input i) = true ->
  Py.startswith (video_url_input i) ["http://"; "https://"] = false ->
  run i w =
    (Raised (Py.mk_exc Py.StopException ""),
     set_page (form_page ++ [validation_error])%list (world_after_init key w)).
Proof.
  intros (Hkey & Ht & Hc) Hclick Hurl Hpre. enter_form i w key Hkey Ht Hc.
  rewrite Hclick, Hurl. unfold handler. unfold_script. rewrite Hpre.
  unfold world_after_init. cbn. destruct (resource_cache w); reflexivity.
Qed.

Lemma run_success (i : interaction) (w : world) (key : string)
    (a : CommunicationAnalysis) (b : Backend) :
  analyze_request Client_init i w key ->
  pipeline_result process_video_insights i w key = (inr a, b) ->
  run i w =
    (Returned tt,
     world_after_call i key b (form_page ++ results_page a ++ footer_page)%list w).
Proof.
  intros ((Hkey & Ht & Hc) & Hclick & Hpre) Hres.
  pose proof (startswith_truthy _ Hpre) as Hurl.
  enter_form i w key Hkey Ht Hc.
  rewrite Hclick, Hurl. unfold handler. unfold_script. rewrite Hpre.
  unfold analysis_status, display_outputs, call_process_video_insights,
    st_status, st_expander, footer, pipeline_result, world_after_call,
    world_after_init, client_of in *.
  unfold_script.
  cbn in *. destruct (resource_cache w); cbn in *; rewrite Hres; cbn;
    (destruct (Py.format_int (clarity_score a)) as [e|value] eqn:F;
     [apply format_int_raises in F as -> |]; reflexivity).
Qed.

Lemma run_failure (i : interaction) (w : world) (key : string)
    (e : Py.exc) (b : Backend) :
  analyze_request Client_init i w key ->
  pipeline_result process_video_insights i w key = (inl e, b) ->
  run i w = (failure_outcome e, world_after_call i key b (failure_page e) w).
Proof.
  intros ((Hkey & Ht & Hc) & Hclick & Hpre) Hres.
  pose proof (startswith_truthy _ Hpre) as Hurl.
  enter_form i w key Hkey Ht Hc.
  rewrite Hclick, Hurl. unfold handler. unfold_script. rewrite Hpre.
  unfold analysis_status, call_process_video_insights,
    st_status, footer, pipeline_result, world_after_call,
    world_after_init, client_of, failure_page, failure_outcome in *.
  unfold_script.
  cbn in *. destruct (resource_cache w); cbn in *; rewrite Hres; cbn;
    destruct (Py.isinstance e Py.ConnectionError);
    [ reflexivity | | reflexivity | ];
    (destruct (Py.isinstance e Py.ValueError);
     [ reflexivity | destruct (Py.isinstance e Py.Exception); reflexivity ]).
Qed.

(** Without a usable credential the run stops at the warning. *)
Lemma run_no_credential (i : interaction) (w : world) :
  Py.truthy_opt_str (os_getenv i "GEMINI_API_KEY") = false ->
  run i w =
    (Raised (Py.mk_exc Py.StopException ""),
     set_page (header_page ++ [api_key_warning_element])%list
       (set_session_state (<["client_ready" := false]> (session_state w)) w)).
Proof.
  intros Hk. unfold App.run, App.main, initialization.
  assert (Hinit :
    match os_getenv i "GEMINI_API_KEY" with
    | Some key => Py.truthy_str key = false
    | None => True
    end) by (destruct (os_getenv i "GEMINI_API_KEY"); [exact Hk | exact I]).
  unfold page_header, api_key_warning. unfold_script.
  destruct (os_getenv i "GEMINI_API_KEY") as [key|]; [rewrite Hinit|];
    cbn; rewrite lookup_insert_eq; reflexivity.
Qed.

(** When the constructor of the client raises, an [Exception] is reported
    and the run stops at the warning; anything else escapes the script. *)
Lemma run_client_failure (i : interaction) (w : world) (key : string) (e : Py.exc) :
  os_getenv i "GEMINI_API_KEY" = Some key ->
  Py.truthy_str key = true ->
  resource_cache w = None ->
  Client_init key = Some e ->
  run i w =
    if Py.isinstance e Py.Exception then
      (Raised (Py.mk_exc Py.StopException ""),
       set_page
         (Error ("Failed to initialize Gemini Client: " +:+ Py.exc_str e)
            :: header_page ++ [api_key_warning_element])%list
         (set_session_state (<["client_ready" := false]> (session_state w)) w))
    else (Raised e, set_page [] w).
Proof.
  intros Hkey Ht Hcache Hinit.
  unfold App.run, App.main, initialization, get_gemini_client, cache_resource,
    genai_Client, page_header, api_key_warning.
  rewrite Hkey, Ht. unfold_script. cbn. rewrite Hcache, Hinit. cbn.
  destruct (Py.isinstance e Py.Exception); [|reflexivity].
  cbn. rewrite lookup_insert_eq. reflexivity.
Qed.

(** Every run goes one of the seven ways. *)
Lemma run_cases (i : interaction) (w : world) :
  run_case Client_init process_video_insights i w (run i w).
Proof.
  destruct (Py.truthy_opt_str (os_getenv i "GEMINI_API_KEY")) eqn:Hk.
  2:{ rewrite (run_no_credential i w Hk). by constructor. }
  destruct (os_getenv i "GEMINI_API_KEY") as [key|] eqn:Hkey; [|discriminate].
  cbn in Hk.
  assert (Hready : client_ready Client_init i w key ->
            run_case Client_init process_video_insights i w (run i w)).
  { intros Hr.
    destruct (analyze_clicked i && Py.truthy_str (video_url_input i)) eqn:Hc.
    2:{ rewrite (run_idle i w key Hr Hc). by constructor. }
    apply andb_true_iff in Hc as [Hclick Hurl].
    destruct (Py.startswith (video_url_input i) ["http://"; "https://"]) eqn:Hpre.
    2:{ rewrite (run_invalid i w key Hr Hclick Hurl Hpre). by constructor. }
    assert (Hreq : analyze_request Client_init i w key) by (split; [exact Hr | split; assumption]).
    destruct (pipeline_result process_video_insights i w key) as [[e|a] b] eqn:Hres.
    - rewrite (run_failure i w key e b Hreq Hres). by constructor.
    - rewrite (run_success i w key a b Hreq Hres). by constructor. }
  destruct (resource_cache w) as [c|] eqn:Hcache.
  - apply Hready. repeat split; [exact Hkey | exact Hk | congruence].
  - destruct (Client_init key) as [e|] eqn:Hinit.
    + rewrite (run_client_failure i w key e Hkey Hk Hcache Hinit).
      destruct (Py.isinstance e Py.Exception) eqn:He.
      * by eapply case_client_error.
      * by eapply case_client_escape.
    + apply Hready. repeat split; [exact Hkey | exact Hk | intros _; exact Hinit].
Qed.

(** The script's own bookkeeping apart, a run in which the handler does not
    get past its validation leaves the backend and the call log alone. *)
Lemma run_without_call (i : interaction) (w : world) :
  analyze_clicked i && Py.truthy_str (video_url_input i)
    && Py.startswith (video_url_input i) ["http://"; "https://"] = false ->
  pipeline_calls (run i w).2 = pipeline_calls w /\
  backend (run i w).2 = backend w.
Proof.
  intros Hgate.
  destruct (run_cases i w) as
    [ | | | key Hr | key Hr | key a b (_ & Hclick & Hpre) | key e b (_ & Hclick & Hpre) ];
    try (unfold world_after_init; cbn; destruct (resource_cache w);
         split; reflexivity);
    try (split; reflexivity).
  all: rewrite Hclick, Hpre, (startswith_truthy _ Hpre) in Hgate; discriminate.
Qed.

(** A run never replaces a cached client, and builds a client only to fill
    an empty cache. *)
Lemma run_cache (i : interaction) (w : world) :
  (resource_cache (run i w).2 = resource_cache w /\
   clients_built (run i w).2 = clients_built w) \/
  (resource_cache w = None /\
   (exists key, resource_cache (run i w).2 = Some (mk_client (clients_built w) key)) /\
   clients_built (run i w).2 = S (clients_built w)).
Proof.
  assert (Hinit : forall key p,
    let w' := set_page p (world_after_init key w) in
    (resource_cache w' = resource_cache w /\ clients_built w' = clients_built w) \/
    (resource_cache w = None /\
     (exists key, resource_cache w' = Some (mk_client (clients_built w) key)) /\
     clients_built w' = S (clients_built w))).
  { intros key p. unfold world_after_init. cbn.
    destruct (resource_cache w) eqn:E; cbn; rewrite ?E; eauto 6. }
  destruct (run_cases i w); cbn; eauto.
  - apply (Hinit key (form_page ++ footer_page)%list).
  - apply (Hinit key (form_page ++ [validation_error])%list).
  - apply (Hinit key (form_page ++ results_page a ++ footer_page)%list).
  - apply (Hinit key (failure_page e)).
Qed.

(** *** The handler's outputs *)

(** C1: when the pipeline returns the analysis with score 87, focus
    "Active Listening" and transcript "Hello world", the run completes and
    the page is the form, the completed status, the heading, the metric with
    value "87%", the callout carrying the focus text, the transcript in an
    expander that is collapsed ([expanded = false]), and the footer. *)
Theorem analysis_87_rendered (i : interaction) (w : world) (key : string)
    (b : Backend) :
  analyze_request Client_init i w key ->
  pipeline_result process_video_insights i w key =
    (inr (mk_analysis 87 "Active Listening" "Hello world"), b) ->
  (run i w).1 = Returned tt /\
  page (run i w).2 =
    (form_page ++
     [status_complete;
      Subheader "✅ Analysis Results";
      Metric "Clarity Score" "87%" "off";
      Info "**Communication Focus:** Active Listening";
      Expander "View Full Transcript" false [Code "Hello world" "text"]] ++
     footer_page)%list /\
  shown (Metric "Clarity Score" "87%" "off") (page (run i w).2) /\
  shown (Info "**Communication Focus:** Active Listening") (page (run i w).2) /\
  shown (Expander "View Full Transcript" false [Code "Hello world" "text"])
    (page (run i w).2).
Proof.
  intros Hreq Hres. rewrite (run_success i w _ _ _ Hreq Hres).
  change (results_page (mk_analysis 87 "Active Listening" "Hello world"))
    with [status_complete;
          Subheader "✅ Analysis Results";
          Metric "Clarity Score" "87%" "off";
          Info "**Communication Focus:** Active Listening";
          Expander "View Full Transcript" false [Code "Hello world" "text"]].
  split; [reflexivity|]. split; [reflexivity|].
  unfold shown. cbn. tauto.
Qed.

(** C2: for an input string that starts neither with "http://" nor with
    "https://", a run, clicked or not, whatever the credential and
    the cache, makes no call of the pipeline: the call log and the backend
    are as before. *)
Theorem no_pipeline_call_without_scheme (i : interaction) (w : world) :
  Py.startswith (video_url_input i) ["http://"; "https://"] = false ->
  pipeline_calls (run i w).2 = pipeline_calls w /\
  backend (run i w).2 = backend w.
Proof.
  intros Hpre. apply run_without_call. rewrite Hpre. apply andb_false_r.
Qed.

(** C3, amended: with the client ready, a click on a non-empty input string
    without scheme prefix renders the validation error after the form and
    stops the run there: no footer, no pipeline call. *)
Theorem validation_error_on_nonempty_input (i : interaction) (w : world)
    (key : string) :
  client_ready Client_init i w key ->
  analyze_clicked i = true ->
  Py.truthy_str (video_url_input i) = true ->
  Py.startswith (video_url_input i) ["http://"; "https://"] = false ->
  (run i w).1 = Raised (Py.mk_exc Py.StopException "") /\
  page (run i w).2 = (form_page ++ [validation_error])%list /\
  pipeline_calls (run i w).2 = pipeline_calls w.
Proof.
  intros Hr Hclick Hurl Hpre.
  split; [|split].
  - by rewrite (run_invalid i w key Hr Hclick Hurl Hpre).
  - by rewrite (run_invalid i w key Hr Hclick Hurl Hpre).
  - apply run_without_call. rewrite Hpre. apply andb_false_r.
Qed.

(** C4: when [GEMINI_API_KEY] is absent, every run, whatever the input
    string and the click, stops at the standing warning: the page is the
    header and the warning, it holds no form widget, and the pipeline is not
    called. *)
Theorem missing_credential_blocks_form (i : interaction) (w : world) :
  os_getenv i "GEMINI_API_KEY" = None ->
  (run i w).1 = Raised (Py.mk_exc Py.StopException "") /\
  page (run i w).2 = (header_page ++ [api_key_warning_element])%list /\
  none_shown is_form_widget (page (run i w).2) = true /\
  pipeline_calls (run i w).2 = pipeline_calls w /\
  backend (run i w).2 = backend w.
Proof.
  intros Hkey.
  assert (Hk : Py.truthy_opt_str (os_getenv i "GEMINI_API_KEY") = false)
    by (by rewrite Hkey).
  rewrite (run_no_credential i w Hk). by repeat split.
Qed.

(** C5: when the pipeline raises an instance of [ConnectionError], the run
    completes with the API-error message and the connectivity hint after
    the failed status, and shows neither the processing-error nor the
    unexpected-error output. *)
Theorem connection_error_renders_api_error (i : interaction) (w : world)
    (key : string) (e : Py.exc) (b : Backend) :
  analyze_request Client_init i w key ->
  pipeline_result process_video_insights i w key = (inl e, b) ->
  Py.isinstance e Py.ConnectionError = true ->
  (run i w).1 = Returned tt /\
  page (run i w).2 =
    (form_page ++
     [status_error;
      Error ("**API Error:** " +:+ Py.exc_str e);
      Markdown "Please verify your Gemini API key is correct and ensure network connectivity."] ++
     footer_page)%list /\
  none_shown is_processing_error_output (page (run i w).2) = true /\
  none_shown is_unexpected_error_output (page (run i w).2) = true.
Proof.
  intros Hreq Hres He. rewrite (run_failure i w _ _ _ Hreq Hres).
  unfold failure_outcome, failure_page. rewrite He. by repeat split.
Qed.

(** C6, amended: when the pipeline raises an instance of [ValueError] that
    is not also an instance of [ConnectionError], the run completes with the
    processing-error message and the hint that the link may not be public,
    and shows neither the API-error nor the unexpected-error output. *)
Theorem value_error_renders_processing_error (i : interaction) (w : world)
    (key : string) (e : Py.exc) (b : Backend) :
  analyze_request Client_init i w key ->
  pipeline_result process_video_insights i w key = (inl e, b) ->
  Py.isinstance e Py.ValueError = true ->
  Py.isinstance e Py.ConnectionError = false ->
  (run i w).1 = Returned tt /\
  page (run i w).2 =
    (form_page ++
     [status_error;
      Error ("**Processing Error:** " +:+ Py.exc_str e);
      Markdown "This usually means `yt-dlp` couldn't process the video URL. Ensure the link is public and accessible."] ++
     footer_page)%list /\
  none_shown is_api_error_output (page (run i w).2) = true /\
  none_shown is_unexpected_error_output (page (run i w).2) = true.
Proof.
  intros Hreq Hres He Hc. rewrite (run_failure i w _ _ _ Hreq Hres).
  unfold failure_outcome, failure_page. rewrite Hc, He.
  by repeat split.
Qed.

(** C7, amended: whatever the pipeline raises, none of the three success
    outputs is on the page; an instance of [Exception] is caught (the run
    completes), and any other exception leaves the script. *)
Theorem pipeline_exception_handling (i : interaction) (w : world)
    (key : string) (e : Py.exc) (b : Backend) :
  analyze_request Client_init i w key ->
  pipeline_result process_video_insights i w key = (inl e, b) ->
  none_shown is_result_output (page (run i w).2) = true /\
  (run i w).1 =
    if Py.isinstance e Py.Exception then Returned tt else Raised e.
Proof.
  intros Hreq Hres. rewrite (run_failure i w _ _ _ Hreq Hres).
  unfold failure_outcome, failure_page. cbn [fst snd].
  destruct (Py.isinstance e Py.ConnectionError) eqn:Hc.
  { rewrite (ConnectionError_is_Exception _ Hc : Py.isinstance e _ = true).
    by split. }
  destruct (Py.isinstance e Py.ValueError) eqn:Hv.
  { rewrite (ValueError_is_Exception _ Hv : Py.isinstance e _ = true).
    by split. }
  destruct (Py.isinstance e Py.Exception); by split.
Qed.


(** *** The shared client *)

Lemma run_step_cache (w w' : world) :
  run_step Client_init process_video_insights w w' ->
  (resource_cache w' = resource_cache w /\ clients_built w' = clients_built w) \/
  (resource_cache w = None /\
   (exists key, resource_cache w' = Some (mk_client (clients_built w) key)) /\
   clients_built w' = S (clients_built w)).
Proof.
  intros (i & session & ->). exact (run_cache i (set_session_state session w)).
Qed.

Lemma cache_inv_step (w w' : world) :
  run_step Client_init process_video_insights w w' ->
  cache_inv w -> cache_inv w'.
Proof.
  intros Hstep. unfold cache_inv.
  destruct (run_step_cache w w' Hstep) as [[-> ->] | (-> & [key ->] & ->)].
  - tauto.
  - intros ->. split; reflexivity.
Qed.

Lemma cache_inv_steps (w w' : world) :
  rtc (run_step Client_init process_video_insights) w w' ->
  cache_inv w -> cache_inv w'.
Proof. induction 1; eauto using cache_inv_step. Qed.

Lemma cached_client_kept (w w' : world) (c : Client) :
  rtc (run_step Client_init process_video_insights) w w' ->
  resource_cache w = Some c ->
  resource_cache w' = Some c.
Proof.
  induction 1 as [|w w1 w2 Hstep _ IH]; [tauto|].
  intros Hc. apply IH.
  destruct (run_step_cache w w1 Hstep) as [[-> _] | (Hnone & _)]; congruence.
Qed.

Lemma get_gemini_client_returned (key : string) (w w1 : world) (c : Client) :
  get_gemini_client Client_init key w = (Returned c, w1) ->
  resource_cache w1 = Some c /\ (cache_inv w -> cache_inv w1).
Proof.
  unfold get_gemini_client, cache_resource, genai_Client, cache_inv.
  destruct (resource_cache w) as [c0|] eqn:Hcache.
  - intros [= -> ->]. rewrite Hcache. tauto.
  - destruct (Client_init key); [discriminate|].
    intros [= <- <-]. cbn. split; [reflexivity|]. intros ->. split; reflexivity.
Qed.

(** C8: in a process that starts with an empty cache, after any number of
    runs at most one client has been built; and once the accessor has
    returned a handle, every later invocation, after any number of further
    runs, returns that same handle and leaves the world, the cache entry
    included, as it is. *)
Theorem client_constructed_once (w0 w : world) :
  resource_cache w0 = None ->
  clients_built w0 = 0%nat ->
  rtc (run_step Client_init process_video_insights) w0 w ->
  (clients_built w <= 1)%nat /\
  forall (key : string) (c : Client) (w1 : world),
    get_gemini_client Client_init key w = (Returned c, w1) ->
    forall w2 : world,
      rtc (run_step Client_init process_video_insights) w1 w2 ->
      (clients_built w2 <= 1)%nat /\
      resource_cache w2 = Some c /\
      forall key' : string,
        get_gemini_client Client_init key' w2 = (Returned c, w2).
Proof.
  intros Hcache Hbuilt Hsteps.
  assert (Hinv : cache_inv w).
  { apply (cache_inv_steps w0 w Hsteps). unfold cache_inv. by rewrite Hcache. }
  assert (Hle : forall w' : world, cache_inv w' -> (clients_built w' <= 1)%nat).
  { intros w'. unfold cache_inv. destruct (resource_cache w'); lia. }
  split; [by apply Hle|].
  intros key c w1 Hget w2 Hsteps2.
  destruct (get_gemini_client_returned key w w1 c Hget) as [Hc1 Hinv1].
  pose proof (cached_client_kept w1 w2 c Hsteps2 Hc1) as Hc2.
  split; [|split].
  - apply Hle, (cache_inv_steps w1 w2 Hsteps2), Hinv1, Hinv.
  - exact Hc2.
  - intros key'. unfold get_gemini_client, cache_resource. by rewrite Hc2.
Qed.

(** *** Consecutive interactions *)

(** C9: take two sessions, each making a first interaction of any kind and
    then an analyze request; if the second pipeline call returns the same
    analysis in both, the second pages are equal, whatever the first
    interactions were and returned: the page is the form, the results of
    that analysis, and the footer. *)
Theorem second_result_only (w wA : world) (i1 i1A i2 i2A : interaction)
    (key keyA : string) (a2 : CommunicationAnalysis) (b bA : Backend) :
  analyze_request Client_init i2 (run i1 w).2 key ->
  pipeline_result process_video_insights i2 (run i1 w).2 key = (inr a2, b) ->
  analyze_request Client_init i2A (run i1A wA).2 keyA ->
  pipeline_result process_video_insights i2A (run i1A wA).2 keyA = (inr a2, bA) ->
  page (run i2 (run i1 w).2).2 =
    (form_page ++ results_page a2 ++ footer_page)%list /\
  page (run i2A (run i1A wA).2).2 = page (run i2 (run i1 w).2).2.
Proof.
  intros Hreq Hres HreqA HresA.
  rewrite (run_success i2 _ _ _ _ Hreq Hres).
  rewrite (run_success i2A _ _ _ _ HreqA HresA).
  split; reflexivity.
Qed.

(** C10: a click with the empty input string is a silent no-op: the run is
    the run without the click, the pipeline is not called, and no
    validation error is on the page. *)
Theorem empty_input_click_is_silent (env : gmap string string) (w : world) :
  run (mk_interaction env "" true) w = run (mk_interaction env "" false) w /\
  pipeline_calls (run (mk_interaction env "" true) w).2 = pipeline_calls w /\
  none_shown is_validation_error (page (run (mk_interaction env "" true) w).2) = true.
Proof.
  split; [reflexivity|]. split.
  - by apply run_without_call.
  - destruct (run_cases (mk_interaction env "" true) w) as
      [ | | | | key _ _ Hurl | key a b (_ & _ & Hpre) | key e b (_ & _ & Hpre) ];
      try reflexivity; discriminate.
Qed.


End RunProperties.

(** ** The theorems at work on a concrete process *)

Section Concrete.
Import St App Pages Demo.

Lemma demo_client_ready (url : string) :
  client_ready Client_ok (click url) fresh_world "secret".
Proof. split; [reflexivity | split; [reflexivity | intros _; reflexivity]]. Defined.

Lemma demo_analyze_request :
  analyze_request Client_ok (click "https://example.org/hello") fresh_world "secret".
Proof. split; [apply demo_client_ready | split; reflexivity]. Defined.

Lemma analysis_87_rendered_witness :
  let r := run Client_ok (pipeline_returning hello_analysis)
             (click "https://example.org/hello") fresh_world in
  r.1 = Returned tt /\
  page r.2 =
    (form_page ++
     [status_complete;
      Subheader "✅ Analysis Results";
      Metric "Clarity Score" "87%" "off";
      Info "**Communication Focus:** Active Listening";
      Expander "View Full Transcript" false [Code "Hello world" "text"]] ++
     footer_page)%list /\
  shown (Metric "Clarity Score" "87%" "off") (page r.2) /\
  shown (Info "**Communication Focus:** Active Listening") (page r.2) /\
  shown (Expander "View Full Transcript" false [Code "Hello world" "text"]) (page r.2).
Proof.
  exact (analysis_87_rendered Client_ok (pipeline_returning hello_analysis)
           (click "https://example.org/hello") fresh_world "secret" tt
           demo_analyze_request eq_refl).
Defined.

Lemma no_pipeline_call_without_scheme_witness :
  let r := run Client_ok (pipeline_returning hello_analysis)
             (click "ftp://example.org/hello") fresh_world in
  pipeline_calls r.2 = [] /\ backend r.2 = tt.
Proof.
  exact (no_pipeline_call_without_scheme Client_ok (pipeline_returning hello_analysis)
           (click "ftp://example.org/hello") fresh_world eq_refl).
Defined.

(** The empty string has no scheme prefix, yet the click on it renders no
    validation error and does not stop the run: the page is the idle page,
    footer included. *)
Lemma empty_input_no_validation_error :
  let r := run Client_ok (pipeline_returning hello_analysis) (click "") fresh_world in
  Py.startswith "" ["http://"; "https://"] = false /\
  r.1 = Returned tt /\
  page r.2 = (form_page ++ footer_page)%list /\
  none_shown is_validation_error (page r.2) = true.
Proof. repeat split; reflexivity. Qed.

Lemma validation_error_on_nonempty_input_witness :
  let r := run Client_ok (pipeline_returning hello_analysis)
             (click "example.org/hello") fresh_world in
  r.1 = Raised (Py.mk_exc Py.StopException "") /\
  page r.2 = (form_page ++ [validation_error])%list /\
  pipeline_calls r.2 = [].
Proof.
  exact (validation_error_on_nonempty_input Client_ok (pipeline_returning hello_analysis)
           (click "example.org/hello") fresh_world "secret"
           (demo_client_ready _) eq_refl eq_refl eq_refl).
Defined.

Lemma missing_credential_blocks_form_witness :
  let r := run Client_ok (pipeline_returning hello_analysis)
             (click_without_key "https://example.org/hello") fresh_world in
  r.1 = Raised (Py.mk_exc Py.StopException "") /\
  page r.2 = (header_page ++ [api_key_warning_element])%list /\
  none_shown is_form_widget (page r.2) = true /\
  pipeline_calls r.2 = [] /\
  backend r.2 = tt.
Proof.
  exact (missing_credential_blocks_form Client_ok (pipeline_returning hello_analysis)
           (click_without_key "https://example.org/hello") fresh_world eq_refl).
Defined.

Lemma connection_error_renders_api_error_witness :
  let r := run Client_ok (pipeline_raising connection_reset)
             (click "https://example.org/hello") fresh_world in
  r.1 = Returned tt /\
  page r.2 =
    (form_page ++
     [status_error;
      Error "**API Error:** connection reset by peer";
      Markdown "Please verify your Gemini API key is correct and ensure network connectivity."] ++
     footer_page)%list /\
  none_shown is_processing_error_output (page r.2) = true /\
  none_shown is_unexpected_error_output (page r.2) = true.
Proof.
  exact (connection_error_renders_api_error Client_ok (pipeline_raising connection_reset)
           (click "https://example.org/hello") fresh_world "secret" connection_reset tt
           demo_analyze_request eq_refl eq_refl).
Defined.

Lemma value_error_renders_processing_error_witness :
  let r := run Client_ok (pipeline_raising unsupported_url)
             (click "https://example.org/hello") fresh_world in
  r.1 = Returned tt /\
  page r.2 =
    (form_page ++
     [status_error;
      Error "**Processing Error:** unsupported URL";
      Markdown "This usually means `yt-dlp` couldn't process the video URL. Ensure the link is public and accessible."] ++
     footer_page)%list /\
  none_shown is_api_error_output (page r.2) = true /\
  none_shown is_unexpected_error_output (page r.2) = true.
Proof.
  exact (value_error_renders_processing_error Client_ok (pipeline_raising unsupported_url)
           (click "https://example.org/hello") fresh_world "secret" unsupported_url tt
           demo_analyze_request eq_refl eq_refl eq_refl).
Defined.

(** An instance of a class that derives from both [ValueError] and
    [ConnectionError] is taken by the first clause, [except ConnectionError]:
    the page is the API-error page, and nothing of the processing-error path
    is on it. *)
Lemma value_and_connection_error_takes_api_path :
  let r := run Client_ok (pipeline_raising both_kinds)
             (click "https://example.org/hello") fresh_world in
  Py.isinstance both_kinds Py.ValueError = true /\
  r.1 = Returned tt /\
  page r.2 =
    (form_page ++
     [status_error;
      Error "**API Error:** both";
      Markdown "Please verify your Gemini API key is correct and ensure network connectivity."] ++
     footer_page)%list /\
  none_shown is_processing_error_output (page r.2) = true.
Proof. repeat split; reflexivity. Qed.

(** A [SystemExit] raised by the pipeline (a backend calling [sys.exit])
    is matched by none of the three [except] clauses and leaves the script. *)
Lemma system_exit_escapes :
  let r := run Client_ok (pipeline_raising exit_request)
             (click "https://example.org/hello") fresh_world in
  Py.isinstance exit_request Py.Exception = false /\
  r.1 = Raised exit_request /\
  escaped r.1 = true /\
  page r.2 = (form_page ++ [status_error])%list.
Proof. repeat split; reflexivity. Qed.

Lemma pipeline_exception_handling_witness :
  let r := run Client_ok (pipeline_raising (Py.mk_exc Py.RuntimeError "boom"))
             (click "https://example.org/hello") fresh_world in
  none_shown is_result_output (page r.2) = true /\
  r.1 = Returned tt.
Proof.
  exact (pipeline_exception_handling Client_ok
           (pipeline_raising (Py.mk_exc Py.RuntimeError "boom"))
           (click "https://example.org/hello") fresh_world "secret"
           (Py.mk_exc Py.RuntimeError "boom") tt
           demo_analyze_request eq_refl).
Defined.

Lemma client_constructed_once_witness :
  let w1 := (get_gemini_client Client_ok "secret" fresh_world).2 in
  let w2 := (run Client_ok (pipeline_returning hello_analysis)
               (click "https://example.org/hello") (set_session_state ∅ w1)).2 in
  (clients_built w2 <= 1)%nat /\
  resource_cache w2 = Some (mk_client 0 "secret") /\
  forall key' : string,
    get_gemini_client Client_ok key' w2 = (Returned (mk_client 0 "secret"), w2).
Proof.
  intros w1 w2.
  apply (proj2 (client_constructed_once Client_ok (pipeline_returning hello_analysis)
                  fresh_world fresh_world eq_refl eq_refl (rtc_refl _ _))
           "secret" (mk_client 0 "secret") w1 eq_refl w2).
  apply rtc_once.
  exists (click "https://example.org/hello"), ∅. reflexivity.
Defined.

Lemma second_result_only_witness :
  let first := click "https://example.org/other" in
  let firstA := click_without_key "not a url" in
  let second := click "https://example.org/hello" in
  let w1 := (run Client_ok pipeline_by_url first fresh_world).2 in
  let w1A := (run Client_ok pipeline_by_url firstA fresh_world).2 in
  page (run Client_ok pipeline_by_url second w1).2 =
    (form_page ++ results_page hello_analysis ++ footer_page)%list /\
  page (run Client_ok pipeline_by_url second w1A).2 =
    page (run Client_ok pipeline_by_url second w1).2.
Proof.
  intros first firstA second w1 w1A.
  apply (second_result_only Client_ok pipeline_by_url fresh_world fresh_world
           first firstA second second "secret" "secret" hello_analysis tt tt).
  - split; [split; [reflexivity | split; [reflexivity | intros _; reflexivity]]
           | split; reflexivity].
  - reflexivity.
  - split; [split; [reflexivity | split; [reflexivity | intros _; reflexivity]]
           | split; reflexivity].
  - reflexivity.
Defined.

(** The first interaction of the session above did render another analysis. *)
Lemma first_page_of_the_session :
  page (run Client_ok pipeline_by_url (click "https://example.org/other") fresh_world).2 =
    (form_page ++ results_page other_analysis ++ footer_page)%list.
Proof. reflexivity. Qed.

End Concrete.

(** ** Further properties of the script *)

Section FurtherProperties.
Import St App Pages Process.

Context {Backend : Type}.
Variable Client_init : string -> option Py.exc.
Variable process_video_insights :
  string -> Client -> Backend -> (Py.exc + CommunicationAnalysis) * Backend.

#[local] Abbreviation world := (St.world Backend).
#[local] Abbreviation run := (App.run Client_init process_video_insights).
#[local] Abbreviation cases := (run_cases Client_init process_video_insights).

(** *** Initialisation *)

(** X1: when the constructor of the client raises an [Exception], the run
    shows the failure message with the exception's text and the API-key
    warning, shows no form widget and stops; the readiness flag is [False],
    nothing is cached or counted as built, and the pipeline is not called. *)
Theorem client_init_failure_blocks_form (i : interaction) (w : world)
    (key : string) (e : Py.exc) :
  os_getenv i "GEMINI_API_KEY" = Some key ->
  Py.truthy_str key = true ->
  resource_cache w = None ->
  Client_init key = Some e ->
  Py.isinstance e Py.Exception = true ->
  (run i w).1 = Raised (Py.mk_exc Py.StopException "") /\
  shown (Error ("Failed to initialize Gemini Client: " +:+ Py.exc_str e))
    (page (run i w).2) /\
  shown api_key_warning_element (page (run i w).2) /\
  none_shown is_form_widget (page (run i w).2) = true /\
  session_state (run i w).2 !! "client_ready" = Some false /\
  resource_cache (run i w).2 = None /\
  clients_built (run i w).2 = clients_built w /\
  pipeline_calls (run i w).2 = pipeline_calls w.
Proof.
  intros Hkey Ht Hcache Hinit He.
  rewrite (run_client_failure Client_init process_video_insights i w key e
             Hkey Ht Hcache Hinit), He.
  cbn [fst snd]. split; [reflexivity|].
  split; [left; reflexivity|].
  split; [unfold shown; cbn; tauto|].
  split; [reflexivity|].
  split; [cbn; apply lookup_insert_eq|].
  by repeat split.
Qed.

(** X2: a credential that is set to the empty string is treated as a
    missing one: the run is the run without the variable, whatever the
    widgets hold, and no client is built or cached by it. *)
Theorem empty_credential_same_as_absent (i i' : interaction) (w : world) :
  os_getenv i "GEMINI_API_KEY" = Some "" ->
  os_getenv i' "GEMINI_API_KEY" = None ->
  run i w = run i' w /\
  page (run i w).2 = (header_page ++ [api_key_warning_element])%list /\
  clients_built (run i w).2 = clients_built w /\
  resource_cache (run i w).2 = resource_cache w.
Proof.
  intros Hempty Habsent.
  assert (Hk : Py.truthy_opt_str (os_getenv i "GEMINI_API_KEY") = false)
    by (by rewrite Hempty).
  assert (Hk' : Py.truthy_opt_str (os_getenv i' "GEMINI_API_KEY") = false)
    by (by rewrite Habsent).
  rewrite (run_no_credential Client_init process_video_insights i w Hk).
  rewrite (run_no_credential Client_init process_video_insights i' w Hk').
  by repeat split.
Qed.

(** X3: the form is on the page exactly when the credential is set and not
    empty and a client is cached or its constructor does not raise. *)
Theorem form_shown_iff_client_ready (i : interaction) (w : world) :
  none_shown is_form_widget (page (run i w).2) = false <->
  exists key : string, client_ready Client_init i w key.
Proof.
  split.
  - destruct (cases i w) as
      [ | | | key Hr | key Hr | key a b [Hr _] | key e b [Hr _] ];
      try (intros _; by exists key); discriminate.
  - intros [key Hr].
    destruct (analyze_clicked i && Py.truthy_str (video_url_input i)) eqn:Hc.
    2:{ by rewrite (run_idle Client_init process_video_insights i w key Hr Hc). }
    apply andb_true_iff in Hc as [Hclick Hurl].
    destruct (Py.startswith (video_url_input i) ["http://"; "https://"]) eqn:Hpre.
    2:{ by rewrite (run_invalid Client_init process_video_insights i w key
                      Hr Hclick Hurl Hpre). }
    assert (Hreq : analyze_request Client_init i w key)
      by (split; [exact Hr | split; assumption]).
    destruct (pipeline_result process_video_insights i w key) as [[e|a] b] eqn:Hres.
    + rewrite (run_failure Client_init process_video_insights i w key e b Hreq Hres).
      unfold failure_page.
      destruct (Py.isinstance e Py.ConnectionError); [reflexivity|].
      destruct (Py.isinstance e Py.ValueError); [reflexivity|].
      destruct (Py.isinstance e Py.Exception); reflexivity.
    + by rewrite (run_success Client_init process_video_insights i w key a b Hreq Hres).
Qed.

(** X4: the readiness flag a previous run left in the session state has no
    influence: with the flag forced to either value beforehand, a run ends
    the same way, with the same page, call log, backend state and cache. *)
Theorem stale_ready_flag_irrelevant (i : interaction) (w : world) (flag : bool) :
  let w' := set_session_state (<["client_ready" := flag]> (session_state w)) w in
  (run i w').1 = (run i w).1 /\
  page (run i w').2 = page (run i w).2 /\
  pipeline_calls (run i w').2 = pipeline_calls (run i w).2 /\
  backend (run i w').2 = backend (run i w).2 /\
  resource_cache (run i w').2 = resource_cache (run i w).2.
Proof.
  intros w'.
  destruct (cases i w) as
    [ Hk | key e Hkey Ht Hcache Hinit He | key e Hkey Ht Hcache Hinit He
    | key Hr Hc | key Hr Hclick Hurl Hpre | key a b Hreq Hres | key e b Hreq Hres ].
  - by rewrite (run_no_credential Client_init process_video_insights i w' Hk).
  - by rewrite (run_client_failure Client_init process_video_insights i w' key e
                  Hkey Ht Hcache Hinit), He.
  - by rewrite (run_client_failure Client_init process_video_insights i w' key e
                  Hkey Ht Hcache Hinit), He.
  - rewrite (run_idle Client_init process_video_insights i w' key Hr Hc).
    unfold world_after_init. cbn. by destruct (resource_cache w).
  - rewrite (run_invalid Client_init process_video_insights i w' key
               Hr Hclick Hurl Hpre).
    unfold world_after_init. cbn. by destruct (resource_cache w).
  - rewrite (run_success Client_init process_video_insights i w' key a b Hreq Hres).
    unfold world_after_call, world_after_init, client_of. cbn.
    by destruct (resource_cache w).
  - rewrite (run_failure Client_init process_video_insights i w' key e b Hreq Hres).
    unfold world_after_call, world_after_init, client_of. cbn.
    by destruct (resource_cache w).
Qed.

(** *** The pipeline call *)

Lemma run_calls (i : interaction) (w : world) (key : string) :
  client_ready Client_init i w key ->
  pipeline_calls (run i w).2 =
    (if analyze_clicked i && Py.startswith (video_url_input i) ["http://"; "https://"]
     then pipeline_calls w ++ [(video_url_input i, client_of key w)]
     else pipeline_calls w)%list /\
  backend (run i w).2 =
    (if analyze_clicked i && Py.startswith (video_url_input i) ["http://"; "https://"]
     then (pipeline_result process_video_insights i w key).2
     else backend w).
Proof.
  intros Hr.
  destruct (analyze_clicked i) eqn:Hclick; cbn [andb].
  2:{ rewrite (run_idle Client_init process_video_insights i w key Hr)
        by (by rewrite Hclick).
      unfold world_after_init. cbn. by destruct (resource_cache w). }
  destruct (Py.startswith (video_url_input i) ["http://"; "https://"]) eqn:Hpre.
  - assert (Hreq : analyze_request Client_init i w key)
      by (split; [exact Hr | split; assumption]).
    destruct (pipeline_result process_video_insights i w key) as [[e|a] b] eqn:Hres.
    + by rewrite (run_failure Client_init process_video_insights i w key e b Hreq Hres).
    + by rewrite (run_success Client_init process_video_insights i w key a b Hreq Hres).
  - apply (run_without_call Client_init process_video_insights).
    rewrite Hpre. apply andb_false_r.
Qed.

(** X5: with the client ready, a run calls the pipeline exactly when the
    button was clicked on an input with a scheme prefix, and then exactly
    once, with the input string as typed and the shared client; the backend
    state is then the one that call left, whether it returned or raised. *)
Theorem pipeline_called_iff_clicked_with_scheme (i : interaction) (w : world)
    (key : string) :
  client_ready Client_init i w key ->
  pipeline_calls (run i w).2 =
    (if analyze_clicked i && Py.startswith (video_url_input i) ["http://"; "https://"]
     then pipeline_calls w ++ [(video_url_input i, client_of key w)]
     else pipeline_calls w)%list /\
  backend (run i w).2 =
    (if analyze_clicked i && Py.startswith (video_url_input i) ["http://"; "https://"]
     then (pipeline_result process_video_insights i w key).2
     else backend w).
Proof. exact (run_calls i w key). Qed.

Lemma resource_cache_after_call (i : interaction) (w : world) (key : string)
    (b : Backend) (p : list element) :
  resource_cache (world_after_call i key b p w) = Some (client_of key w).
Proof.
  unfold world_after_call, world_after_init, client_of. cbn.
  destruct (resource_cache w) eqn:E; cbn; by rewrite ?E.
Qed.

Lemma pipeline_calls_after_init (w : world) (key : string) :
  pipeline_calls (world_after_init key w) = pipeline_calls w.
Proof. unfold world_after_init. cbn. by destruct (resource_cache w). Qed.

Lemma calls_inv_run (i : interaction) (w : world) :
  calls_inv w -> calls_inv (run i w).2.
Proof.
  intros Hinv.
  assert (Hinit : forall key p, calls_inv (set_page p (world_after_init key w))).
  { intros key p url c Hin.
    change (In (url, c) (pipeline_calls (world_after_init key w))) in Hin.
    rewrite pipeline_calls_after_init in Hin.
    destruct (Hinv url c Hin) as [Hpre Hc].
    split; [exact Hpre|]. unfold world_after_init. cbn. by rewrite Hc. }
  assert (Hcall : forall key b p,
    Py.startswith (video_url_input i) ["http://"; "https://"] = true ->
    calls_inv (world_after_call i key b p w)).
  { intros key b p Hpre url c Hin. rewrite resource_cache_after_call.
    cbn in Hin. apply in_app_or in Hin as [Hin | [[= <- <-] | []]].
    - destruct (Hinv url c Hin) as [Hu Hc]. split; [exact Hu|].
      unfold client_of. by rewrite Hc.
    - by split. }
  destruct (cases i w) as
    [ | | | key _ _ | key _ _ _ _
    | key a b (_ & _ & Hpre) _ | key e b (_ & _ & Hpre) _ ];
    try exact Hinv; try apply Hinit; by apply Hcall.
Qed.

Lemma calls_inv_steps (w w' : world) :
  rtc (run_step Client_init process_video_insights) w w' ->
  calls_inv w -> calls_inv w'.
Proof.
  induction 1 as [|w w1 w2 (i & session & ->) _ IH]; [tauto|].
  intros Hinv. apply IH.
  apply (calls_inv_run i (set_session_state session w)). exact Hinv.
Qed.

(** X6: in a process that starts with an empty cache and an empty call log,
    after any number of runs of any sessions, every call the pipeline ever
    received was made on a URL with a scheme prefix and with the one client
    the cache holds, the first one built. *)
Theorem calls_validated_with_shared_client (w0 w : world) :
  resource_cache w0 = None ->
  clients_built w0 = 0%nat ->
  pipeline_calls w0 = [] ->
  rtc (run_step Client_init process_video_insights) w0 w ->
  forall (url : string) (c : Client),
    In (url, c) (pipeline_calls w) ->
    Py.startswith url ["http://"; "https://"] = true /\
    resource_cache w = Some c /\
    client_id c = 0%nat.
Proof.
  intros Hcache Hbuilt Hcalls Hsteps url c Hin.
  assert (Hinv : calls_inv w).
  { apply (calls_inv_steps w0 w Hsteps). intros u c'. rewrite Hcalls. intros []. }
  destruct (Hinv url c Hin) as [Hpre Hc].
  split; [exact Hpre|]. split; [exact Hc|].
  assert (Hci : cache_inv w).
  { apply (cache_inv_steps Client_init process_video_insights w0 w Hsteps).
    unfold cache_inv. by rewrite Hcache. }
  unfold cache_inv in Hci. rewrite Hc in Hci. tauto.
Qed.

(** *** What the handler renders *)

(** X7: an [Exception] of the pipeline that is neither a [ConnectionError]
    nor a [ValueError] is shown as an exception box followed by the
    unexpected-error message with its text; the run completes with the
    footer, and neither the API-error nor the processing-error output is on
    the page. *)
Theorem other_exception_renders_unexpected_error (i : interaction) (w : world)
    (key : string) (e : Py.exc) (b : Backend) :
  analyze_request Client_init i w key ->
  pipeline_result process_video_insights i w key = (inl e, b) ->
  Py.isinstance e Py.Exception = true ->
  Py.isinstance e Py.ConnectionError = false ->
  Py.isinstance e Py.ValueError = false ->
  (run i w).1 = Returned tt /\
  page (run i w).2 =
    (form_page ++
     [status_error;
      ExceptionBox e;
      Error ("An unexpected error occurred during processing: " +:+ Py.exc_str e)] ++
     footer_page)%list /\
  none_shown is_api_error_output (page (run i w).2) = true /\
  none_shown is_processing_error_output (page (run i w).2) = true.
Proof.
  intros Hreq Hres He Hc Hv.
  rewrite (run_failure Client_init process_video_insights i w key e b Hreq Hres).
  unfold failure_outcome, failure_page. rewrite He, Hc, Hv. by repeat split.
Qed.

(** X8: the footer is on the page exactly when the run completed: a run
    stopped by the API-key warning or by the validation error, and a run an
    exception escapes from, render no footer element; every other run ends
    with it. *)
Theorem footer_iff_completed (i : interaction) (w : world) :
  none_shown is_footer_element (page (run i w).2) = negb (completed (run i w).1).
Proof.
  destruct (cases i w) as [ | | | | | key a b _ _ | key e b _ _ ];
    try reflexivity.
  - unfold world_after_call, results_page. cbn [fst snd page set_page].
    destruct (Py.format_int (clarity_score a)); reflexivity.
  - unfold failure_outcome, failure_page.
    destruct (Py.isinstance e Py.ConnectionError); [reflexivity|].
    destruct (Py.isinstance e Py.ValueError); [reflexivity|].
    destruct (Py.isinstance e Py.Exception); reflexivity.
Qed.

(** X9: when the pipeline returns an analysis whose score has more than
    4300 decimal digits, formatting the metric value raises [ValueError]
    inside the [try]: after the completed status and the heading the run
    shows the processing-error message with that error's text and the hint,
    shows none of the three result outputs, and completes with the footer. *)
Theorem oversized_score_renders_processing_error (i : interaction) (w : world)
    (key : string) (a : CommunicationAnalysis) (b : Backend) :
  analyze_request Client_init i w key ->
  pipeline_result process_video_insights i w key = (inr a, b) ->
  10 ^ 4300 <= Z.abs (clarity_score a) ->
  (run i w).1 = Returned tt /\
  page (run i w).2 =
    (form_page ++
     [status_complete;
      Subheader "✅ Analysis Results";
      Error ("**Processing Error:** " +:+ Py.exc_str Py.int_str_digits_error);
      Markdown "This usually means `yt-dlp` couldn't process the video URL. Ensure the link is public and accessible."] ++
     footer_page)%list /\
  none_shown is_result_output (page (run i w).2) = true.
Proof.
  intros Hreq Hres Hbig.
  rewrite (run_success Client_init process_video_insights i w key a b Hreq Hres).
  unfold world_after_call, results_page. cbn [fst snd page set_page].
  rewrite (format_int_oversized _ Hbig). by repeat split.
Qed.

(** X11: nothing of a result is kept between runs: submitting the same valid
    request twice in a row calls the pipeline twice, both times on the same
    URL and with the same client. *)
Theorem repeated_request_calls_again (i : interaction) (w : world) (key : string) :
  analyze_request Client_init i w key ->
  pipeline_calls (run i (run i w).2).2 =
    (pipeline_calls w ++
     [(video_url_input i, client_of key w); (video_url_input i, client_of key w)])%list.
Proof.
  intros (Hr & Hclick & Hpre).
  pose proof (pipeline_called_once := fun w' (Hr' : client_ready Client_init i w' key) =>
    proj1 (run_calls i w' key Hr')).
  destruct Hr as (Hkey & Ht & Hc).
  assert (Hcache : resource_cache (run i w).2 = Some (client_of key w)).
  { destruct (pipeline_result process_video_insights i w key) as [[e|a] b] eqn:Hres.
    - rewrite (run_failure Client_init process_video_insights i w key e b
                 (conj (conj Hkey (conj Ht Hc)) (conj Hclick Hpre)) Hres).
      apply resource_cache_after_call.
    - rewrite (run_success Client_init process_video_insights i w key a b
                 (conj (conj Hkey (conj Ht Hc)) (conj Hclick Hpre)) Hres).
      apply resource_cache_after_call. }
  assert (Hr2 : client_ready Client_init i (run i w).2 key).
  { split; [exact Hkey|]. split; [exact Ht|]. rewrite Hcache. discriminate. }
  rewrite (pipeline_called_once _ Hr2), (pipeline_called_once _ (conj Hkey (conj Ht Hc))).
  rewrite Hclick, Hpre. cbn [andb].
  assert (Hsame : client_of key (run i w).2 = client_of key w)
    by (unfold client_of at 1; by rewrite Hcache).
  rewrite Hsame. by rewrite <- app_assoc.
Qed.

End FurtherProperties.

(** ** The further properties on the concrete process *)

Section FurtherConcrete.
Import St App Pages Demo Process.

Lemma hello_request :
  analyze_request Client_ok (click "https://example.org/hello") fresh_world "secret".
Proof.
  split; [split; [reflexivity | split; [reflexivity | intros _; reflexivity]]
         | split; reflexivity].
Defined.

Lemma client_init_failure_blocks_form_witness :
  let r := run Client_rejecting (pipeline_returning hello_analysis)
             (click "https://example.org/hello") fresh_world in
  r.1 = Raised (Py.mk_exc Py.StopException "") /\
  shown (Error "Failed to initialize Gemini Client: invalid API key") (page r.2) /\
  shown api_key_warning_element (page r.2) /\
  none_shown is_form_widget (page r.2) = true /\
  session_state r.2 !! "client_ready" = Some false /\
  resource_cache r.2 = None /\
  clients_built r.2 = 0%nat /\
  pipeline_calls r.2 = [].
Proof.
  exact (client_init_failure_blocks_form Client_rejecting
           (pipeline_returning hello_analysis)
           (click "https://example.org/hello") fresh_world "secret"
           (Py.mk_exc Py.ValueError "invalid API key")
           eq_refl eq_refl eq_refl eq_refl eq_refl).
Defined.

Lemma empty_credential_same_as_absent_witness :
  let r := run Client_ok (pipeline_returning hello_analysis)
             (click_with_empty_key "https://example.org/hello") fresh_world in
  r = run Client_ok (pipeline_returning hello_analysis)
        (click_without_key "anything") fresh_world /\
  page r.2 = (header_page ++ [api_key_warning_element])%list /\
  clients_built r.2 = 0%nat /\
  resource_cache r.2 = None.
Proof.
  exact (empty_credential_same_as_absent Client_ok (pipeline_returning hello_analysis)
           (click_with_empty_key "https://example.org/hello")
           (click_without_key "anything") fresh_world eq_refl eq_refl).
Defined.

Lemma pipeline_called_iff_clicked_with_scheme_witness :
  (let r := run Client_ok (pipeline_returning hello_analysis)
              (click "https://example.org/hello") fresh_world in
   pipeline_calls r.2 = [("https://example.org/hello", mk_client 0 "secret")] /\
   backend r.2 = tt) /\
  (let r := run Client_ok (pipeline_returning hello_analysis)
              (typing "https://example.org/hello") fresh_world in
   pipeline_calls r.2 = [] /\ backend r.2 = tt).
Proof.
  split.
  - exact (pipeline_called_iff_clicked_with_scheme Client_ok
             (pipeline_returning hello_analysis)
             (click "https://example.org/hello") fresh_world "secret"
             (conj eq_refl (conj eq_refl (fun _ => eq_refl)))).
  - exact (pipeline_called_iff_clicked_with_scheme Client_ok
             (pipeline_returning hello_analysis)
             (typing "https://example.org/hello") fresh_world "secret"
             (conj eq_refl (conj eq_refl (fun _ => eq_refl)))).
Defined.

Lemma calls_validated_with_shared_client_witness :
  let w := (run Client_ok (pipeline_raising connection_reset)
              (click "http://example.org/clip")
              (set_session_state ∅ fresh_world)).2 in
  Py.startswith "http://example.org/clip" ["http://"; "https://"] = true /\
  resource_cache w = Some (mk_client 0 "secret") /\
  client_id (mk_client 0 "secret") = 0%nat.
Proof.
  intros w.
  apply (calls_validated_with_shared_client Client_ok (pipeline_raising connection_reset)
           fresh_world w eq_refl eq_refl eq_refl).
  - apply rtc_once. exists (click "http://example.org/clip"), ∅. reflexivity.
  - left. reflexivity.
Defined.

Lemma other_exception_renders_unexpected_error_witness :
  let r := run Client_ok (pipeline_raising timed_out)
             (click "https://example.org/hello") fresh_world in
  r.1 = Returned tt /\
  page r.2 =
    (form_page ++
     [status_error;
      ExceptionBox timed_out;
      Error "An unexpected error occurred during processing: timed out"] ++
     footer_page)%list /\
  none_shown is_api_error_output (page r.2) = true /\
  none_shown is_processing_error_output (page r.2) = true.
Proof.
  exact (other_exception_renders_unexpected_error Client_ok (pipeline_raising timed_out)
           (click "https://example.org/hello") fresh_world "secret" timed_out tt
           hello_request eq_refl eq_refl eq_refl eq_refl).
Defined.

Lemma oversized_score_renders_processing_error_witness :
  let r := run Client_ok (pipeline_returning oversized_analysis)
             (click "https://example.org/hello") fresh_world in
  r.1 = Returned tt /\
  page r.2 =
    (form_page ++
     [status_complete;
      Subheader "✅ Analysis Results";
      Error ("**Processing Error:** " +:+ Py.exc_str Py.int_str_digits_error);
      Markdown "This usually means `yt-dlp` couldn't process the video URL. Ensure the link is public and accessible."] ++
     footer_page)%list /\
  none_shown is_result_output (page r.2) = true.
Proof.
  apply (oversized_score_renders_processing_error Client_ok
           (pipeline_returning oversized_analysis)
           (click "https://example.org/hello") fresh_world "secret"
           oversized_analysis tt hello_request eq_refl).
  change (10 ^ 4300 <= Z.abs (10 ^ 4300)).
  rewrite Z.abs_eq by (apply Z.pow_nonneg; lia). apply Z.le_refl.
Defined.

Lemma repeated_request_calls_again_witness :
  let i := click "https://example.org/hello" in
  let run1 := run Client_ok (pipeline_returning hello_analysis) i fresh_world in
  pipeline_calls (run Client_ok (pipeline_returning hello_analysis) i run1.2).2 =
    [("https://example.org/hello", mk_client 0 "secret");
     ("https://example.org/hello", mk_client 0 "secret")].
Proof.
  exact (repeated_request_calls_again Client_ok (pipeline_returning hello_analysis)
           (click "https://example.org/hello") fresh_world "secret" hello_request).
Defined.

End FurtherConcrete.
